(** * Render-transaction tracker of [@ember/-internals/metal/lib/transaction.ts]

    A shallow embedding of the [TransactionRunner] class and of the three
    functions the module exports, followed by the properties of the
    transaction life cycle.

    Conventions of the embedding.
    - A JavaScript object is known by its identity, a [positive].
    - Code that reads and writes the runner is a state transformer that
      ends in a completion: a normal value or a thrown value.  State written
      before a [throw] stays written, as in JavaScript.
    - [DEBUG] (from [@glimmer/env]) is one build-time constant; it is a
      parameter of everything below.  The class is created only when
      [DEBUG] holds, but its methods branch on [DEBUG] again, and both
      branches are modelled: "either build mode" below means either value
      of the flag inside the class.
    - [assert] (from [@ember/debug]) lives outside this file and is a
      parameter: given the message and the test it returns or throws.  The
      string conversion of an object, the [debug()] of a reference and the
      [peek()] of the debug stack are taken to return.
    - [transactionId] is a JavaScript number used as a counter; it is an
      integer here ([++] is exact for every counter below 2^53). *)

From stdpp Require Import gmap strings list fin_maps.

Open Scope Z_scope.

(** ** JavaScript values, completions, and the state monad *)

Definition object := positive.

(** What the tracker can observe of a value of type [any]: whether it is
    truthy, and whether it has a [debug] method (and what that returns). *)
Inductive any :=
| Undefined
| Null
| Boolean (b : bool)
| Number (n : Z)
| String (s : string)
| Ref (debug : option string).

Definition truthy (v : any) : bool :=
  match v with
  | Undefined | Null => false
  | Boolean b => b
  | Number n => negb (n =? 0)
  | String s => negb (bool_decide (s = ""))
  | Ref _ => true
  end.

(** [typeof v.debug === 'function'], for a [v] that is truthy. *)
Definition debug_method (v : any) : option string :=
  match v with
  | Ref d => d
  | _ => None
  end.

Inductive thrown :=
| TypeError (message : string)
| Error (message : string)
| Value (v : any).

Inductive completion (A : Type) :=
| Normal (a : A)
| Throw (e : thrown).
Arguments Normal {A} a.
Arguments Throw {A} e.

Definition M (S A : Type) : Type := S → completion A * S.

#[global] Instance M_ret {S} : MRet (M S) :=
  λ A (a : A) s, (Normal a, s).

#[global] Instance M_bind {S} : MBind (M S) :=
  λ A B (k : A → M S B) (m : M S A) s,
    match m s with
    | (Normal a, s') => k a s'
    | (Throw e, s') => (Throw e, s')
    end.

Definition throw {S A} (e : thrown) : M S A := λ s, (Throw e, s).

(** [try { body } finally { cleanup }]: the cleanup always runs; the
    completion of the body is kept unless the cleanup itself throws. *)
Definition try_finally {S A} (body : M S A) (cleanup : M S unit) : M S A :=
  λ s,
    let (c, s1) := body s in
    match cleanup s1 with
    | (Normal _, s2) => (c, s2)
    | (Throw e, s2) => (Throw e, s2)
    end.

(** A template literal prints an absent label as [undefined]. *)
Definition show (label : option string) : string := default "undefined" label.

(** ** The interfaces [DebugStack] and [DebugContext]

    [U] is the state of the renderer, which the tracker never inspects;
    [peek] reads the top of the renderer's stack of template names. *)

Record DebugStack (U : Type) := { peek : U → option string }.
Arguments peek {U} _ _.

Module DebugContext.
Record Env (U : Type) := { debugStack : option (DebugStack U) }.
Arguments debugStack {U} _.
End DebugContext.

(** ** The class [TransactionRunner] *)

Module TransactionRunner.

(** A value stored under a key: the DEBUG record or the transaction id. *)
Inductive entry :=
| Rendered (lastRef : any) (lastRenderedIn : option string)
| Generation (id : Z).

Record t (U : Type) := mk {
  transactionId : Z;
  inTransaction : bool;
  shouldReflush : bool;
  weakMap : gmap object (gmap string entry);
  debugStack : option (DebugStack U)
}.
Arguments mk {U}.
Arguments transactionId {U} _.
Arguments inTransaction {U} _.
Arguments shouldReflush {U} _.
Arguments weakMap {U} _.
Arguments debugStack {U} _.

(** The one runner of the module together with the renderer's own state. *)
Record Heap (U : Type) := { this : t U; world : U }.
Arguments this {U} _.
Arguments world {U} _.

(** A method of the context: the rendering operation. *)
Definition Operation (U : Type) : Type := M (Heap U) unit.

(** A context: [context.env] may be missing, since [runInTransaction] takes
    any object and casts it to [DebugContext]. *)
Record Context (U : Type) := {
  env : option (DebugContext.Env U);
  methods : gmap string (Operation U)
}.
Arguments env {U} _.
Arguments methods {U} _.

(** The heap together with the log of the methods invoked on contexts.
    The log is a ghost: no code reads it. *)
Record Machine (U : Type) := { heap : Heap U; invoked : list string }.
Arguments heap {U} _.
Arguments invoked {U} _.

Section Class.
Context {U : Type}.
Variable DEBUG : bool.
Variable assert : string → bool → completion unit.
Variable toString : object → string.

Definition set_transactionId (n : Z) (r : t U) : t U :=
  mk n (inTransaction r) (shouldReflush r) (weakMap r) (debugStack r).
Definition set_inTransaction (b : bool) (r : t U) : t U :=
  mk (transactionId r) b (shouldReflush r) (weakMap r) (debugStack r).
Definition set_shouldReflush (b : bool) (r : t U) : t U :=
  mk (transactionId r) (inTransaction r) b (weakMap r) (debugStack r).
Definition set_weakMap (w : gmap object (gmap string entry)) (r : t U) : t U :=
  mk (transactionId r) (inTransaction r) (shouldReflush r) w (debugStack r).
Definition set_debugStack (d : option (DebugStack U)) (r : t U) : t U :=
  mk (transactionId r) (inTransaction r) (shouldReflush r) (weakMap r) d.

Definition read {A} (f : t U → A) : M (Heap U) A :=
  λ h, (Normal (f (this h)), h).
Definition update (f : t U → t U) : M (Heap U) unit :=
  λ h, (Normal tt, {| this := f (this h); world := world h |}).

(** [this.debugStack!.peek()]: a [TypeError] when the field is undefined. *)
Definition peek_debugStack : M (Heap U) (option string) :=
  λ h,
    match debugStack (this h) with
    | Some stack => (Normal (peek stack (world h)), h)
    | None => (Throw (TypeError "Cannot read property 'peek' of undefined"), h)
    end.

Definition constructor : t U :=
  mk 0 false false ∅ None.

Definition clearObjectMap : M (Heap U) unit :=
  update (set_weakMap ∅).

(** The inner map is reachable through [weakMap] only, so [createMap]
    returns it by value and [setKey] stores the changed map back. *)
Definition createMap (object : object) : M (Heap U) (gmap string entry) :=
  let map := ∅ in
  update (λ r, set_weakMap (<[object := map]> (weakMap r)) r) ;;
  mret map.

Definition getOrCreateMap (object : object) : M (Heap U) (gmap string entry) :=
  map ← read (λ r, weakMap r !! object) ;
  match map with
  | None => createMap object
  | Some map => mret map
  end.

Definition setKey (object : object) (key : string) (value : entry)
  : M (Heap U) unit :=
  map ← getOrCreateMap object ;
  update (λ r, set_weakMap (<[object := <[key := value]> map]> (weakMap r)) r).

Definition getKey (object : object) (key : string) : M (Heap U) (option entry) :=
  map ← read (λ r, weakMap r !! object) ;
  match map with
  | Some map => mret (map !! key)
  | None => mret None
  end.

Definition hasRendered (object : object) (key : string) : M (Heap U) bool :=
  active ← read inTransaction ;
  if negb active then mret false
  else if DEBUG then
    value ← getKey object key ;
    mret (match value with Some _ => true | None => false end)
  else
    value ← getKey object key ;
    id ← read transactionId ;
    mret (match value with Some (Generation n) => n =? id | _ => false end).

Definition didRender (object : object) (key : string) (reference : any)
  : M (Heap U) unit :=
  active ← read inTransaction ;
  if negb active then mret tt
  else if DEBUG then
    lastRenderedIn ← peek_debugStack ;
    setKey object key (Rendered reference lastRenderedIn)
  else
    id ← read transactionId ;
    setKey object key (Generation id).

(** [let { lastRef, lastRenderedIn } = this.getKey(object, key)]: a number
    has neither property. *)
Definition destructure (value : option entry) : any * option string :=
  match value with
  | Some (Rendered lastRef lastRenderedIn) => (lastRef, lastRenderedIn)
  | _ => (Undefined, None)
  end.

Definition hazard_label (lastRef : any) (lastRenderedIn : option string) : string :=
  match (if truthy lastRef then debug_method lastRef else None) with
  | Some described => "as `" +:+ described +:+ "` in " +:+ show lastRenderedIn
  | None => "in " +:+ show lastRenderedIn
  end.

Definition hazard_message (object : object) (label : string)
    (currentlyIn : option string) : string :=
  "You modified `" +:+ toString object +:+
  "` twice in a single render. It was first rendered " +:+ label +:+
  " and then modified later in " +:+ show currentlyIn +:+
  ". This was unreliable and slow in Ember 1.x and is no longer supported. See https://github.com/emberjs/ember.js/issues/13948 for more details.".

(** [assert(message, test)]: the facility returns or throws. *)
Definition call_assert (message : string) (test : bool) : M (Heap U) unit :=
  λ h, (assert message test, h).

Definition assertNotRendered (object : object) (key : string) : M (Heap U) unit :=
  active ← read inTransaction ;
  if negb active then mret tt
  else
    rendered ← hasRendered object key ;
    if (rendered : bool) then
      (if DEBUG return M (Heap U) unit then
         value ← getKey object key ;
         let '(lastRef, lastRenderedIn) := destructure value in
         currentlyIn ← peek_debugStack ;
         let label := hazard_label lastRef lastRenderedIn in
         call_assert (hazard_message object label currentlyIn) false
       else mret tt) ;;
      update (set_shouldReflush true)
    else mret tt.

Definition before (context : Context U) : M (Heap U) unit :=
  update (set_inTransaction true) ;;
  update (set_shouldReflush false) ;;
  if DEBUG then
    match env context return M (Heap U) unit with
    | Some e => update (set_debugStack (DebugContext.debugStack e))
    | None =>
        throw (TypeError "Cannot read property 'debugStack' of undefined")
    end
  else mret tt.

Definition after : M (Heap U) unit :=
  update (λ r, set_transactionId (transactionId r + 1) r) ;;
  update (set_inTransaction false) ;;
  (if DEBUG return M (Heap U) unit then update (set_debugStack None)
   else mret tt) ;;
  clearObjectMap.

(** Code of the runner seen from the machine: the log is untouched. *)
Definition lift {A} (m : M (Heap U) A) : M (Machine U) A :=
  λ s, let (c, h) := m (heap s) in (c, {| heap := h; invoked := invoked s |}).

(** [context[methodName]()]: the call is logged, then the method runs. *)
Definition call_method (context : Context U) (methodName : string)
  : M (Machine U) unit :=
  match (methods context !! methodName : option (Operation U))
        return M (Machine U) unit with
  | Some method =>
      λ s, let (c, h) := method (heap s) in
           (c, {| heap := h; invoked := methodName :: invoked s |})
  | None => throw (TypeError "context[methodName] is not a function")
  end.

Definition runInTransaction (context : Context U) (methodName : string)
  : M (Machine U) bool :=
  lift (before context) ;;
  try_finally (call_method context methodName) (lift after) ;;
  lift (read shouldReflush).

End Class.

End TransactionRunner.

(** ** The exported functions

    [let runner = new TransactionRunner()] is the [this] of the heap.  In a
    DEBUG build the three exports forward to the runner; in a production
    build [runInTransaction] is the short arrow function and the other two
    variables are never assigned. *)

Module transaction.
Section Exports.
Context {U : Type}.
Variable DEBUG : bool.
Variable assert : string → bool → completion unit.
Variable toString : object → string.

Definition runInTransaction (context : TransactionRunner.Context U)
    (methodName : string) : M (TransactionRunner.Machine U) bool :=
  if DEBUG then TransactionRunner.runInTransaction DEBUG context methodName
  else TransactionRunner.call_method context methodName ;; mret false.

Definition didRender (object : object) (key : string) (reference : any)
  : M (TransactionRunner.Heap U) unit :=
  if DEBUG then TransactionRunner.didRender DEBUG object key reference
  else throw (TypeError "didRender is not a function").

Definition assertNotRendered (object : object) (key : string)
  : M (TransactionRunner.Heap U) unit :=
  if DEBUG then TransactionRunner.assertNotRendered DEBUG assert toString object key
  else throw (TypeError "assertNotRendered is not a function").

End Exports.
End transaction.

(** The machine right after the module is loaded. *)
Definition loaded {U} (u : U) : TransactionRunner.Machine U :=
  {| TransactionRunner.heap :=
       {| TransactionRunner.this := TransactionRunner.constructor;
          TransactionRunner.world := u |};
     TransactionRunner.invoked := [] |}.

(** ** Rendering operations

    What a rendering operation does to the tracker is a sequence of calls of
    the runner's methods, interleaved with work of its own on the renderer's
    state.  A call that throws ends the operation. *)

Inductive Call (U : Type) :=
| DidRender (object : object) (key : string) (reference : any)
| AssertNotRendered (object : object) (key : string)
| HasRendered (object : object) (key : string)
| Work (f : U → U).
Arguments DidRender {U} _ _ _.
Arguments AssertNotRendered {U} _ _.
Arguments HasRendered {U} _ _.
Arguments Work {U} _.

Section Operations.
Context {U : Type}.
Variable DEBUG : bool.
Variable assert : string → bool → completion unit.
Variable toString : object → string.

Definition perform (c : Call U) : M (TransactionRunner.Heap U) unit :=
  match c with
  | DidRender object key reference =>
      TransactionRunner.didRender DEBUG object key reference
  | AssertNotRendered object key =>
      TransactionRunner.assertNotRendered DEBUG assert toString object key
  | HasRendered object key =>
      TransactionRunner.hasRendered DEBUG object key ;; mret tt
  | Work f =>
      λ h, (Normal tt, {| TransactionRunner.this := TransactionRunner.this h;
                          TransactionRunner.world := f (TransactionRunner.world h) |})
  end.

Fixpoint run_script (script : list (Call U)) : M (TransactionRunner.Heap U) unit :=
  match script with
  | [] => mret tt
  | c :: rest => perform c ;; run_script rest
  end.

End Operations.

(** Does a script touch a pair it has rendered?  [seen] tells which pairs
    count as rendered when the script starts. *)
Fixpoint hazard {U} (seen : object * string → bool) (script : list (Call U)) : bool :=
  match script with
  | [] => false
  | DidRender object key _ :: rest =>
      hazard (λ p, bool_decide (p = (object, key)) || seen p) rest
  | AssertNotRendered object key :: rest =>
      seen (object, key) || hazard seen rest
  | _ :: rest => hazard seen rest
  end.

(** ** Two assertion facilities and a context, for concrete runs *)

(** The facility that throws on a failed test. *)
Definition assert_throws (message : string) (test : bool) : completion unit :=
  if test then Normal tt else Throw (Error ("Assertion Failed: " +:+ message)).

(** A facility that only reports. *)
Definition assert_warns (message : string) (test : bool) : completion unit :=
  Normal tt.

Definition plain_toString (o : object) : string := "[object Object]".

(** The renderer's state is its stack of template names. *)
Definition stack_top : DebugStack (list string) := {| peek := head |}.

Definition render_context (op : TransactionRunner.Operation (list string))
  : TransactionRunner.Context (list string) :=
  {| TransactionRunner.env :=
       Some {| DebugContext.debugStack := Some stack_top |};
     TransactionRunner.methods := {[ "render" := op ]} |}.

Definition bare_context (op : TransactionRunner.Operation (list string))
  : TransactionRunner.Context (list string) :=
  {| TransactionRunner.env := None;
     TransactionRunner.methods := {[ "render" := op ]} |}.

(** An operation that renders and then fails. *)
Definition failing_render : TransactionRunner.Operation (list string) :=
  TransactionRunner.didRender true 1%positive "x" Null ;;
  throw (Value (String "boom")).

(** A heap in the middle of a DEBUG transaction that has seen a hazard. *)
Definition flagged_heap : TransactionRunner.Heap (list string) :=
  {| TransactionRunner.this :=
       TransactionRunner.mk 3 true true ∅ (Some stack_top);
     TransactionRunner.world := ["application"%string] |}.

(** ** The state of the runner, read as a whole

    The functions of this part are not code of the module: they name what
    the methods compute, for the statements below. *)

Section Readings.
Context {U : Type}.
Variable DEBUG : bool.

Import TransactionRunner.

(** The value [getKey] returns. *)
Definition stored (r : t U) (object : object) (key : string) : option entry :=
  match weakMap r !! object with
  | Some map => map !! key
  | None => None
  end.

(** The test [hasRendered] applies to the stored value. *)
Definition rendered (r : t U) (p : object * string) : bool :=
  match stored r p.1 p.2 with
  | Some e =>
      if DEBUG then true
      else match e with Generation n => n =? transactionId r | _ => false end
  | None => false
  end.

(** The table after [setKey]. *)
Definition record (object : object) (key : string) (value : entry) (r : t U) : t U :=
  set_weakMap
    (<[object := <[key := value]> (default ∅ (weakMap r !! object))]> (weakMap r)) r.

(** The runner after [before] has read the stack, and after [after]. *)
Definition begun (stack : option (DebugStack U)) (r : t U) : t U :=
  mk (transactionId r) true false (weakMap r)
     (if DEBUG then stack else debugStack r).

Definition ended (r : t U) : t U :=
  mk (transactionId r + 1) false (shouldReflush r) ∅
     (if DEBUG then None else debugStack r).

(** The value the runner stores for a reference rendered in heap [h]. *)
Definition entry_of (reference : any) (h : Heap U) : entry :=
  if DEBUG then
    Rendered reference
      (match debugStack (this h) with
       | Some stack => peek stack (world h)
       | None => None
       end)
  else Generation (transactionId (this h)).

(** The collaborators let every call of a script return: nothing to ask
    of a production runner; in DEBUG the stack is there and the assertion
    facility returns when the test fails. *)
Definition quiet (assert : string → bool → completion unit) (r : t U) : Prop :=
  DEBUG = true →
  is_Some (debugStack r) ∧ ∀ message, assert message false = Normal tt.

(** What no call changes, and the one direction in which the flag moves. *)
Definition carries_on (r r' : t U) : Prop :=
  transactionId r' = transactionId r ∧
  inTransaction r' = inTransaction r ∧
  debugStack r' = debugStack r ∧
  (shouldReflush r = true → shouldReflush r' = true).

End Readings.

(** ** Callers of [runInTransaction] *)

Section Callers.
Context {U : Type}.
Variable DEBUG : bool.

Import TransactionRunner.


(** A renderer that runs one transaction after the other and goes on
    whatever each of them returned or threw. *)
Fixpoint run_all (calls : list (Context U * string)) (s : Machine U) : Machine U :=
  match calls with
  | [] => s
  | (context, methodName) :: rest =>
      run_all rest (TransactionRunner.runInTransaction DEBUG context methodName s).2
  end.

End Callers.

(** A context whose [env] has no [debugStack], and one without methods. *)
Definition stackless_context (op : TransactionRunner.Operation (list string))
  : TransactionRunner.Context (list string) :=
  {| TransactionRunner.env := Some {| DebugContext.debugStack := None |};
     TransactionRunner.methods := {[ "render" := op ]} |}.

Definition empty_context : TransactionRunner.Context (list string) :=
  {| TransactionRunner.env :=
       Some {| DebugContext.debugStack := Some stack_top |};
     TransactionRunner.methods := ∅ |}.

(** * Properties *)

(** ** What each method computes *)

Ltac unfold_monad :=
  unfold mbind, mret, M_bind, M_ret, throw, try_finally,
    TransactionRunner.read, TransactionRunner.update,
    TransactionRunner.peek_debugStack, TransactionRunner.call_assert,
    TransactionRunner.lift in *.

Section Methods.
Context {U : Type}.
Variable DEBUG : bool.
Variable assert : string → bool → completion unit.
Variable toString : object → string.

Import TransactionRunner.

Implicit Types (h : Heap U) (r : t U) (o : object) (k : string).

Lemma getKey_eq o k h : getKey o k h = (Normal (stored (this h) o k), h).
Proof.
  unfold getKey, stored. unfold_monad.
  by destruct (weakMap (this h) !! o).
Qed.

Lemma hasRendered_eq o k h :
  hasRendered DEBUG o k h =
  (Normal (inTransaction (this h) && rendered DEBUG (this h) (o, k)), h).
Proof.
  unfold hasRendered. unfold_monad. fold (@mbind (M (Heap U)) _).
  destruct (inTransaction (this h)); simpl; [|done].
  unfold rendered; simpl.
  destruct DEBUG; unfold mbind, M_bind; rewrite getKey_eq;
    by destruct (stored (this h) o k) as [[]|].
Qed.

Lemma setKey_eq o k v h :
  setKey o k v h = (Normal tt, {| this := record o k v (this h); world := world h |}).
Proof.
  unfold setKey, getOrCreateMap, createMap, record, set_weakMap. unfold_monad.
  destruct (weakMap (this h) !! o); simpl; [done|].
  by rewrite insert_insert_eq.
Qed.

Lemma stored_record o k v r o' k' :
  stored (record o k v r) o' k' =
  if decide ((o', k') = (o, k)) then Some v else stored r o' k'.
Proof.
  unfold stored, record; simpl.
  destruct (decide (o' = o)) as [->|Ho].
  - rewrite lookup_insert_eq.
    destruct (decide (k' = k)) as [->|Hk].
    + rewrite lookup_insert_eq. by rewrite decide_True.
    + rewrite lookup_insert_ne by done.
      rewrite decide_False by congruence.
      by destruct (weakMap r !! o).
  - rewrite lookup_insert_ne by done.
    by rewrite decide_False by congruence.
Qed.

(** A second [setKey] of the same pair replaces the first. *)
Lemma record_record o k (v1 v2 : entry) r :
  record o k v2 (record o k v1 r) = record o k v2 r.
Proof.
  unfold record, set_weakMap; simpl.
  rewrite lookup_insert_eq; simpl. by rewrite !insert_insert_eq.
Qed.

Lemma rendered_empty r (p : object * string) : weakMap r = ∅ → rendered DEBUG r p = false.
Proof. intros Hw. unfold rendered, stored. by rewrite Hw, lookup_empty. Qed.

Lemma didRender_idle o k ref h :
  inTransaction (this h) = false → didRender DEBUG o k ref h = (Normal tt, h).
Proof. intros Hin. unfold didRender. unfold_monad. by rewrite Hin. Qed.

Lemma didRender_eq o k ref h :
  inTransaction (this h) = true →
  (DEBUG = true → is_Some (debugStack (this h))) →
  didRender DEBUG o k ref h =
  (Normal tt, {| this := record o k (entry_of DEBUG ref h) (this h);
                 world := world h |}).
Proof.
  intros Hin Hstack. unfold didRender, entry_of. unfold_monad.
  rewrite Hin; simpl. destruct DEBUG.
  - destruct Hstack as [stack Hs]; [done|]. rewrite Hs. by rewrite setKey_eq.
  - by rewrite setKey_eq.
Qed.

Lemma rendered_record o k ref h p :
  rendered DEBUG (record o k (entry_of DEBUG ref h) (this h)) p =
  bool_decide (p = (o, k)) || rendered DEBUG (this h) p.
Proof.
  destruct p as [o' k']. unfold rendered; simpl. rewrite stored_record.
  case_decide as Hp.
  - rewrite bool_decide_eq_true_2 by done. unfold entry_of.
    destruct DEBUG; [done|]. simpl. by rewrite Z.eqb_refl.
  - by rewrite bool_decide_eq_false_2 by done.
Qed.

Lemma assertNotRendered_idle o k h :
  inTransaction (this h) = false → assertNotRendered DEBUG assert toString o k h = (Normal tt, h).
Proof. intros Hin. unfold assertNotRendered. unfold_monad. by rewrite Hin. Qed.

Lemma assertNotRendered_fresh o k h :
  rendered DEBUG (this h) (o, k) = false →
  assertNotRendered DEBUG assert toString o k h = (Normal tt, h).
Proof.
  intros Hr. unfold assertNotRendered. unfold mbind, mret, M_bind, M_ret, read.
  destruct (inTransaction (this h)) eqn:Hin; simpl; [|done].
  by rewrite hasRendered_eq, Hin, Hr.
Qed.

Lemma assertNotRendered_hazard o k h :
  inTransaction (this h) = true →
  rendered DEBUG (this h) (o, k) = true →
  quiet DEBUG assert (this h) →
  assertNotRendered DEBUG assert toString o k h =
  (Normal tt, {| this := set_shouldReflush true (this h); world := world h |}).
Proof.
  intros Hin Hr Hq. unfold assertNotRendered.
  unfold mbind, mret, M_bind, M_ret, read. rewrite Hin; simpl.
  rewrite hasRendered_eq, Hin, Hr; simpl.
  destruct DEBUG; [|done].
  destruct Hq as [[stack Hs] Ha]; [done|].
  rewrite getKey_eq. destruct (destructure _) as [lastRef lastRenderedIn].
  unfold peek_debugStack, call_assert, update. rewrite Hs. by rewrite Ha.
Qed.

End Methods.

(** ** Calls inside a transaction *)

Section Scripts.
Context {U : Type}.
Variable DEBUG : bool.
Variable assert : string → bool → completion unit.
Variable toString : object → string.

Import TransactionRunner.

Implicit Types (h : Heap U) (r : t U) (o : object) (k : string).
Implicit Types (c : Call U) (script : list (Call U)).

(** A call leaves the heap alone or does its one write, whether it
    returns or throws. *)
Lemma didRender_cases o k ref h :
  (didRender DEBUG o k ref h).2 = h ∨
  didRender DEBUG o k ref h =
  (Normal tt, {| this := record o k (entry_of DEBUG ref h) (this h);
                 world := world h |}).
Proof.
  destruct (inTransaction (this h)) eqn:Hin.
  - destruct DEBUG eqn:HD.
    + destruct (debugStack (this h)) as [stack|] eqn:Hs.
      * right. apply didRender_eq; [done|]. by rewrite Hs.
      * left. unfold didRender. unfold_monad. rewrite Hin; simpl. by rewrite Hs.
    + right. by apply didRender_eq.
  - left. by rewrite didRender_idle.
Qed.

Lemma assertNotRendered_cases o k h :
  (assertNotRendered DEBUG assert toString o k h).2 = h ∨
  assertNotRendered DEBUG assert toString o k h =
  (Normal tt, {| this := set_shouldReflush true (this h); world := world h |}).
Proof.
  unfold assertNotRendered. unfold mbind, mret, M_bind, M_ret, read.
  destruct (inTransaction (this h)) eqn:Hin; simpl; [|by left].
  rewrite hasRendered_eq, Hin; simpl.
  destruct (rendered DEBUG (this h) (o, k)); [|by left].
  destruct DEBUG; [|by right].
  rewrite getKey_eq. destruct (destructure _) as [lastRef lastRenderedIn].
  unfold peek_debugStack, call_assert, update.
  destruct (debugStack (this h)); [|by left].
  destruct (assert _ false) as [[]|]; [by right|by left].
Qed.

Lemma carries_on_refl r : carries_on r r.
Proof. by repeat split. Qed.

Lemma carries_on_trans r1 r2 r3 :
  carries_on r1 r2 → carries_on r2 r3 → carries_on r1 r3.
Proof.
  intros (?&?&?&?) (?&?&?&?). repeat split; try congruence. auto.
Qed.

Lemma perform_carries_on c h :
  carries_on (this h) (this (perform DEBUG assert toString c h).2).
Proof.
  destruct c as [o k ref|o k|o k|f]; simpl.
  - destruct (didRender_cases o k ref h) as [->| ->]; by repeat split.
  - destruct (assertNotRendered_cases o k h) as [->| ->]; by repeat split.
  - unfold mbind, mret, M_bind, M_ret. rewrite hasRendered_eq.
    by repeat split.
  - by repeat split.
Qed.

Lemma run_script_carries_on script h :
  carries_on (this h) (this (run_script DEBUG assert toString script h).2).
Proof.
  revert h. induction script as [|c rest IH]; intros h; simpl.
  - apply carries_on_refl.
  - unfold mbind, M_bind.
    pose proof (perform_carries_on c h) as Hc.
    destruct (perform DEBUG assert toString c h) as [[[]|e] h1]; simpl in *.
    + eapply carries_on_trans; [exact Hc|apply IH].
    + exact Hc.
Qed.

Lemma hazard_ext (seen seen' : object * string → bool) script :
  (∀ p, seen p = seen' p) → hazard seen script = hazard seen' script.
Proof.
  revert seen seen'. induction script as [|c rest IH]; intros seen seen' Hs; [done|].
  destruct c as [o k ref|o k|o k|f]; simpl; auto.
  - apply IH. intros p. by rewrite Hs.
  - rewrite Hs. f_equal. by apply IH.
Qed.

Lemma hazard_seen (seen : object * string → bool) o k script1 script2 :
  seen (o, k) = true →
  hazard seen (script1 ++ AssertNotRendered o k :: script2) = true.
Proof.
  revert seen. induction script1 as [|c rest IH]; intros seen Hs; simpl.
  - by rewrite Hs.
  - destruct c as [o' k' ref|o' k'|o' k'|f]; auto.
    + apply IH. rewrite Hs. apply orb_true_r.
    + rewrite IH by done. apply orb_true_r.
Qed.

Lemma hazard_rendered (seen : object * string → bool) o k ref script0 script1 script2 :
  hazard seen
    (script0 ++ DidRender o k ref :: script1 ++ AssertNotRendered o k :: script2)
  = true.
Proof.
  revert seen. induction script0 as [|c rest IH]; intros seen; simpl.
  - apply hazard_seen. by rewrite bool_decide_eq_true_2.
  - destruct c as [o' k' ref'|o' k'|o' k'|f]; auto.
    rewrite IH. apply orb_true_r.
Qed.

(** With quiet collaborators a script inside a transaction runs to its
    end, and raises the flag exactly when it touches a rendered pair. *)
Lemma run_script_quiet script h :
  inTransaction (this h) = true →
  quiet DEBUG assert (this h) →
  ∃ h', run_script DEBUG assert toString script h = (Normal tt, h') ∧
        shouldReflush (this h') =
          shouldReflush (this h) || hazard (rendered DEBUG (this h)) script.
Proof.
  revert h. induction script as [|c rest IH]; intros h Hin Hq; simpl.
  - exists h. by rewrite orb_false_r.
  - unfold mbind, M_bind.
    destruct c as [o k ref|o k|o k|f]; simpl.
    + rewrite didRender_eq; [|done|by intros HD; destruct (Hq HD)].
      destruct (IH {| this := record o k (entry_of DEBUG ref h) (this h);
                      world := world h |}) as (h' & Hrun & Hflag); [done|done|].
      exists h'. split; [done|]. rewrite Hflag; simpl. f_equal.
      apply hazard_ext. intros p. apply rendered_record.
    + destruct (rendered DEBUG (this h) (o, k)) eqn:Hr.
      * rewrite assertNotRendered_hazard by done.
        destruct (IH {| this := set_shouldReflush true (this h);
                        world := world h |}) as (h' & Hrun & Hflag); [done|done|].
        exists h'. split; [done|]. rewrite Hflag; simpl.
        by rewrite orb_true_r.
      * rewrite assertNotRendered_fresh by done.
        destruct (IH h) as (h' & Hrun & Hflag); [done|done|].
        exists h'. split; [done|]. by rewrite Hflag.
    + unfold mbind, mret, M_bind, M_ret. rewrite hasRendered_eq.
      destruct (IH h) as (h' & Hrun & Hflag); [done|done|].
      exists h'. split; [done|]. by rewrite Hflag.
    + destruct (IH {| this := this h; world := f (world h) |})
        as (h' & Hrun & Hflag); [done|done|].
      exists h'. split; [done|]. by rewrite Hflag.
Qed.

End Scripts.

(** ** The transaction itself *)

Section Transactions.
Context {U : Type}.
Variable DEBUG : bool.

Import TransactionRunner.

Implicit Types (h : Heap U) (m : Machine U) (ctx : Context U).

Lemma before_eq ctx e h :
  (DEBUG = true → env ctx = Some e) →
  before DEBUG ctx h =
  (Normal tt, {| this := begun DEBUG (DebugContext.debugStack e) (this h);
                 world := world h |}).
Proof.
  intros He. unfold before, begun. unfold_monad. simpl.
  destruct DEBUG; [|done]. by rewrite He.
Qed.

Lemma after_eq h :
  after DEBUG h = (Normal tt, {| this := ended DEBUG (this h); world := world h |}).
Proof.
  unfold after, clearObjectMap, ended. unfold_monad. simpl. by destruct DEBUG.
Qed.

Lemma runInTransaction_eq ctx e name (op : Operation U) m :
  (DEBUG = true → env ctx = Some e) →
  methods ctx !! name = Some op →
  TransactionRunner.runInTransaction DEBUG ctx name m =
  let h0 := {| this := begun DEBUG (DebugContext.debugStack e) (this (heap m));
               world := world (heap m) |} in
  (match (op h0).1 with
   | Normal _ => Normal (shouldReflush (this (op h0).2))
   | Throw x => Throw x
   end,
   {| heap := {| this := ended DEBUG (this (op h0).2); world := world (op h0).2 |};
      invoked := name :: invoked m |}).
Proof.
  intros He Hop. unfold TransactionRunner.runInTransaction, call_method.
  rewrite Hop. unfold mbind, M_bind, mret, M_ret, lift, try_finally.
  rewrite (before_eq ctx e) by done. simpl.
  destruct (op _) as [c h1]; simpl. rewrite after_eq.
  by destruct c.
Qed.

(** In a DEBUG build the exports are the runner's methods; in a production
    build only [runInTransaction] is a function. *)
Lemma exports_in_DEBUG assert toString ctx name o k ref :
  transaction.runInTransaction true ctx name =
    TransactionRunner.runInTransaction true ctx name ∧
  transaction.didRender (U:=U) true o k ref = didRender true o k ref ∧
  transaction.assertNotRendered (U:=U) true assert toString o k =
    assertNotRendered true assert toString o k.
Proof. done. Qed.

Lemma exports_in_production assert toString o k ref h :
  transaction.didRender (U:=U) false o k ref h =
    (Throw (TypeError "didRender is not a function"), h) ∧
  transaction.assertNotRendered (U:=U) false assert toString o k h =
    (Throw (TypeError "assertNotRendered is not a function"), h).
Proof. done. Qed.

(** The module starts idle with an empty table, and every transaction
    whose setup succeeds ends that way. *)
Lemma loaded_idle (u : U) :
  inTransaction (this (heap (loaded u))) = false ∧
  weakMap (this (heap (loaded u))) = ∅.
Proof. done. Qed.

Lemma runInTransaction_ends_idle ctx e name (op : Operation U) m :
  (DEBUG = true → env ctx = Some e) →
  methods ctx !! name = Some op →
  let m' := (TransactionRunner.runInTransaction DEBUG ctx name m).2 in
  inTransaction (this (heap m')) = false ∧ weakMap (this (heap m')) = ∅.
Proof.
  intros He Hop m'. subst m'.
  by rewrite (runInTransaction_eq ctx e name op m He Hop).
Qed.

End Transactions.

(** ** Records last for the whole transaction *)

Section Persistence.
Context {U : Type}.
Variable DEBUG : bool.
Variable assert : string → bool → completion unit.
Variable toString : object → string.

Import TransactionRunner.

Implicit Types (h : Heap U) (p : object * string).

Lemma perform_keeps_rendered (c : Call U) h p :
  rendered DEBUG (this h) p = true →
  rendered DEBUG (this (perform DEBUG assert toString c h).2) p = true.
Proof.
  intros Hr. destruct c as [o k ref|o k|o k|f]; simpl.
  - destruct (didRender_cases DEBUG o k ref h) as [->| ->]; [done|]. simpl.
    rewrite rendered_record, Hr. apply orb_true_r.
  - by destruct (assertNotRendered_cases DEBUG assert toString o k h) as [->| ->].
  - unfold mbind, mret, M_bind, M_ret. by rewrite hasRendered_eq.
  - done.
Qed.

Lemma run_script_keeps_rendered (script : list (Call U)) h p :
  rendered DEBUG (this h) p = true →
  rendered DEBUG (this (run_script DEBUG assert toString script h).2) p = true.
Proof.
  revert h. induction script as [|c rest IH]; intros h Hr; [done|]. simpl.
  unfold mbind, M_bind.
  pose proof (perform_keeps_rendered c h p Hr) as Hc.
  destruct (perform DEBUG assert toString c h) as [[[]|e] h1]; simpl in *; auto.
Qed.

End Persistence.

(** * The claims *)

Section Claims.
Import TransactionRunner.

(** C1, as stated, fails where the assertion facility throws: the
    operation renders object 1 under "x" and then touches it, [assert]
    throws out of [assertNotRendered] before the flag is written, and
    [runInTransaction] throws instead of returning [true]. *)
Lemma basic_hazard_assertion_throws :
  (transaction.runInTransaction true
     (render_context
        (run_script true assert_throws plain_toString
           [DidRender 1%positive "x" (Ref (Some "ref"));
            AssertNotRendered 1%positive "x"]))
     "render" (loaded ["application"%string])).1
  = Throw (Error ("Assertion Failed: " +:+
      hazard_message plain_toString 1%positive "as `ref` in application"
        (Some "application"%string)))
  ∧
  (transaction.runInTransaction true
     (render_context
        (run_script true assert_throws plain_toString
           [DidRender 1%positive "x" (Ref (Some "ref"));
            AssertNotRendered 1%positive "x"]))
     "render" (loaded ["application"%string])).1
  ≠ Normal true.
Proof. split; [by vm_compute|]. by vm_compute. Qed.

(** C1 (amended).  In a DEBUG build, with a context that exposes its debug
    stack and an assertion facility that returns when its test fails: an
    operation that calls [didRender(o, k, ref)] and later
    [assertNotRendered(o, k)], whatever other tracker calls surround them,
    makes [runInTransaction] return [true]. *)
Theorem C1_basic_hazard {U} (assert : string → bool → completion unit)
    (toString : object → string) (ctx : Context U) (stack : DebugStack U)
    (name : string) (o : object) (k : string) (ref : any)
    (script0 script1 script2 : list (Call U)) (m : Machine U) :
  env ctx = Some {| DebugContext.debugStack := Some stack |} →
  methods ctx !! name =
    Some (run_script true assert toString
            (script0 ++ DidRender o k ref :: script1 ++
             AssertNotRendered o k :: script2)) →
  (∀ message, assert message false = Normal tt) →
  (transaction.runInTransaction true ctx name m).1 = Normal true.
Proof.
  intros Henv Hop Hassert. unfold transaction.runInTransaction.
  rewrite (runInTransaction_eq true ctx _ name _ m (λ _, Henv) Hop). simpl.
  set (h0 := {| this := _; world := _ |}).
  destruct (run_script_quiet true assert toString
              (script0 ++ DidRender o k ref :: script1 ++
               AssertNotRendered o k :: script2) h0)
    as (h' & Hrun & Hflag); [done|by split; [eexists|]|].
  rewrite Hrun; simpl. rewrite Hflag, hazard_rendered. by rewrite orb_true_r.
Qed.

Lemma C1_basic_hazard_witness :
  (transaction.runInTransaction true
     (render_context
        (run_script true assert_warns plain_toString
           [DidRender 1%positive "x" (Ref (Some "ref"));
            AssertNotRendered 1%positive "x"]))
     "render" (loaded ["application"%string])).1
  = Normal true.
Proof.
  apply (C1_basic_hazard assert_warns plain_toString _ stack_top "render"
           1%positive "x" (Ref (Some "ref")) [] [] []); reflexivity.
Defined.

(** C2, as stated, fails in both builds.  In a DEBUG build where the
    assertion facility throws, the pair (1, "x") is recorded, [hasRendered]
    says so, and [assertNotRendered] leaves [shouldReflush] false, because
    [assert] throws before the assignment is reached.  In a production
    build the exported [assertNotRendered] is not a function: the call
    throws and the flag stays false as well. *)
Lemma reflush_skipped_when_assertion_throws :
  let h0 := (before true (render_context (mret tt))
               (heap (loaded ["application"%string]))).2 in
  let h1 := (transaction.didRender true 1%positive "x" (Ref (Some "ref")) h0).2 in
  (hasRendered true 1%positive "x" h1).1 = Normal true ∧
  shouldReflush
    (this (transaction.assertNotRendered true assert_throws plain_toString
             1%positive "x" h1).2) = false ∧
  (transaction.assertNotRendered false assert_warns plain_toString
     1%positive "x" h1).1 = Throw (TypeError "assertNotRendered is not a function") ∧
  shouldReflush
    (this (transaction.assertNotRendered false assert_warns plain_toString
             1%positive "x" h1).2) = false.
Proof. by vm_compute. Qed.

(** C2 (amended).  In a DEBUG build, inside a transaction whose stack
    reference is there, once the exported [didRender(o, k, ref)] has run,
    a later [assertNotRendered(o, k)] of the same transaction returns with
    [shouldReflush] set to [true] and nothing else changed, provided
    [assert] returns: the assignment follows the call of [assert].  In a
    production build there is no such signal: the exported
    [assertNotRendered] is never assigned, so the call throws a
    [TypeError] and changes nothing, and [runInTransaction] never returns
    [true]. *)
Theorem C2_reflush_signal {U}
    (assert : string → bool → completion unit) (toString : object → string)
    (o : object) (k : string) (ref : any) (script : list (Call U))
    (h : Heap U) :
  inTransaction (this h) = true →
  is_Some (debugStack (this h)) →
  (∀ message, assert message false = Normal tt) →
  let h1 := (transaction.didRender true o k ref h).2 in
  let h2 := (run_script true assert toString script h1).2 in
  (hasRendered true o k h2).1 = Normal true ∧
  transaction.assertNotRendered true assert toString o k h2 =
    (Normal tt, {| this := set_shouldReflush true (this h2); world := world h2 |}) ∧
  transaction.assertNotRendered false assert toString o k h2 =
    (Throw (TypeError "assertNotRendered is not a function"), h2) ∧
  ∀ (ctx : Context U) (name : string) (m : Machine U),
    (transaction.runInTransaction false ctx name m).1 ≠ Normal true.
Proof.
  intros Hin Hstack Hassert h1 h2.
  unfold transaction.didRender, transaction.assertNotRendered in *.
  assert (carries_on (this h) (this h1) ∧
          rendered true (this h1) (o, k) = true) as [Hc1 Hr1].
  { subst h1. rewrite didRender_eq by done.
    cbn [snd this]. split; [by repeat split|].
    rewrite rendered_record. by rewrite bool_decide_eq_true_2. }
  pose proof (run_script_carries_on true assert toString script h1) as Hc2.
  fold h2 in Hc2.
  destruct (carries_on_trans _ _ _ Hc1 Hc2) as (_ & Hin2 & Hs2 & _).
  assert (Hr2 : rendered true (this h2) (o, k) = true)
    by (by apply run_script_keeps_rendered).
  rewrite Hin in Hin2. split; [|split; [|split]].
  - by rewrite hasRendered_eq, Hin2, Hr2.
  - apply assertNotRendered_hazard; [done|done|].
    intros _. by rewrite Hs2.
  - done.
  - intros ctx name m. unfold transaction.runInTransaction, call_method.
    unfold mbind, M_bind, mret, M_ret, throw.
    destruct (methods ctx !! name) as [op|]; [|done].
    by destruct (op (heap m)) as [[[]|x] h'].
Qed.

Lemma C2_reflush_signal_witness :
  let h := {| this := mk 7 true false ∅ (Some stack_top);
              world := ["application"%string] |} in
  let h1 := (transaction.didRender true 1%positive "x" Null h).2 in
  let h2 := (run_script true assert_warns plain_toString
               [DidRender 2%positive "y" Null] h1).2 in
  (hasRendered true 1%positive "x" h2).1 = Normal true ∧
  transaction.assertNotRendered true assert_warns plain_toString 1%positive "x" h2 =
    (Normal tt, {| this := set_shouldReflush true (this h2); world := world h2 |}) ∧
  transaction.assertNotRendered false assert_warns plain_toString 1%positive "x" h2 =
    (Throw (TypeError "assertNotRendered is not a function"), h2).
Proof.
  pose proof (C2_reflush_signal assert_warns plain_toString
                1%positive "x" Null [DidRender 2%positive "y" Null]
                {| this := mk 7 true false ∅ (Some stack_top);
                   world := ["application"%string] |}
                eq_refl (ex_intro _ stack_top eq_refl) (λ _, eq_refl))
    as (H1 & H2 & H3 & _).
  split; [exact H1|]. split; [exact H2|exact H3].
Defined.

(** C3.  Let the operation throw [x] when it runs in the state [before]
    has set up, leaving heap [h1].  Then [runInTransaction] throws the same
    [x], and [after] has run on what the operation left: the runner is not
    in a transaction, [transactionId] is one more than the operation left
    it (one more than at entry when the operation did not touch it, as no
    sequence of tracker calls does), the stack reference of a DEBUG runner
    is cleared and the table is empty.  The next transaction therefore
    starts with [shouldReflush] false and an empty table. *)
Theorem C3_exception_safety {U} (DEBUG : bool) (ctx : Context U)
    (e : DebugContext.Env U) (name : string) (op : Operation U)
    (m : Machine U) (x : thrown) (h1 : Heap U) :
  (DEBUG = true → env ctx = Some e) →
  methods ctx !! name = Some op →
  op (before DEBUG ctx (heap m)).2 = (Throw x, h1) →
  let m' := (TransactionRunner.runInTransaction DEBUG ctx name m).2 in
  (TransactionRunner.runInTransaction DEBUG ctx name m).1 = Throw x ∧
  inTransaction (this (heap m')) = false ∧
  transactionId (this (heap m')) = transactionId (this h1) + 1 ∧
  (transactionId (this h1) = transactionId (this (heap m)) →
   transactionId (this (heap m')) = transactionId (this (heap m)) + 1) ∧
  (DEBUG = true → debugStack (this (heap m')) = None) ∧
  weakMap (this (heap m')) = ∅ ∧
  world (heap m') = world h1 ∧
  ∀ (ctx' : Context U) (e' : DebugContext.Env U),
    (DEBUG = true → env ctx' = Some e') →
    let h' := (before DEBUG ctx' (heap m')).2 in
    (before DEBUG ctx' (heap m')).1 = Normal tt ∧
    inTransaction (this h') = true ∧
    shouldReflush (this h') = false ∧
    weakMap (this h') = ∅.
Proof.
  intros Henv Hop Hthrow m'. subst m'.
  rewrite (runInTransaction_eq DEBUG ctx e name op m Henv Hop).
  rewrite (before_eq DEBUG ctx e) in Hthrow by done. simpl in Hthrow.
  cbv zeta. rewrite Hthrow. simpl.
  repeat split; try done.
  - intros ->. done.
  - by intros ->.
  - by rewrite (before_eq DEBUG ctx' e').
  - by rewrite (before_eq DEBUG ctx' e').
  - by rewrite (before_eq DEBUG ctx' e').
  - by rewrite (before_eq DEBUG ctx' e').
Qed.

Lemma C3_exception_safety_witness :
  (TransactionRunner.runInTransaction true (render_context failing_render)
     "render" (loaded ["application"%string])).1
  = Throw (Value (String "boom")).
Proof.
  refine (proj1 (C3_exception_safety true (render_context failing_render)
                   {| DebugContext.debugStack := Some stack_top |} "render"
                   failing_render (loaded ["application"%string])
                   (Value (String "boom"))
                   (didRender true 1%positive "x" Null
                      (before true (render_context failing_render)
                         (heap (loaded ["application"%string]))).2).2
                   _ _ _)); reflexivity.
Defined.

(** C4.  Whatever the first transaction did, hazard included and whether
    it returned or threw, a following transaction that only calls
    [assertNotRendered(o, k)] returns [false]: [after] has replaced the
    table. *)
Theorem C4_isolation {U} (DEBUG : bool)
    (assert : string → bool → completion unit) (toString : object → string)
    (ctx1 ctx2 : Context U) (e1 e2 : DebugContext.Env U) (n1 n2 : string)
    (script : list (Call U)) (o : object) (k : string) (m : Machine U) :
  (DEBUG = true → env ctx1 = Some e1) →
  (DEBUG = true → env ctx2 = Some e2) →
  methods ctx1 !! n1 = Some (run_script DEBUG assert toString script) →
  methods ctx2 !! n2 =
    Some (run_script DEBUG assert toString [AssertNotRendered o k]) →
  let m1 := (TransactionRunner.runInTransaction DEBUG ctx1 n1 m).2 in
  weakMap (this (heap m1)) = ∅ ∧
  (TransactionRunner.runInTransaction DEBUG ctx2 n2 m1).1 = Normal false.
Proof.
  intros He1 He2 Hop1 Hop2 m1. subst m1.
  rewrite (runInTransaction_eq DEBUG ctx1 e1 n1 _ m He1 Hop1). cbv zeta.
  set (m1 := (_, _).2).
  split; [done|].
  rewrite (runInTransaction_eq DEBUG ctx2 e2 n2 _ m1 He2 Hop2). cbv zeta.
  simpl. unfold mbind, M_bind.
  rewrite assertNotRendered_fresh by (by apply rendered_empty).
  done.
Qed.

Lemma C4_isolation_witness :
  let first := run_script true assert_throws plain_toString
                 [DidRender 1%positive "x" Null; AssertNotRendered 1%positive "x"] in
  let second := run_script true assert_throws plain_toString
                 [AssertNotRendered 1%positive "x"] in
  let m1 := (TransactionRunner.runInTransaction true (render_context first)
               "render" (loaded ["application"%string])).2 in
  weakMap (this (heap m1)) = ∅ ∧
  (TransactionRunner.runInTransaction true (render_context second) "render" m1).1
  = Normal false.
Proof.
  apply (C4_isolation true assert_throws plain_toString
           (render_context _) (render_context _)
           {| DebugContext.debugStack := Some stack_top |}
           {| DebugContext.debugStack := Some stack_top |}
           "render" "render"
           [DidRender 1%positive "x" Null; AssertNotRendered 1%positive "x"]
           1%positive "x" (loaded ["application"%string])); reflexivity.
Defined.

(** C5.  From an empty table, a transaction that renders [(o, k)] and then
    touches another pair -- another key, another object, or both --
    returns [false], in either build mode. *)
Theorem C5_no_false_positive {U} (DEBUG : bool)
    (assert : string → bool → completion unit) (toString : object → string)
    (ctx : Context U) (stack : DebugStack U) (name : string)
    (o o' : object) (k k' : string) (ref : any) (m : Machine U) :
  (DEBUG = true → env ctx = Some {| DebugContext.debugStack := Some stack |}) →
  methods ctx !! name =
    Some (run_script DEBUG assert toString
            [DidRender o k ref; AssertNotRendered o' k']) →
  weakMap (this (heap m)) = ∅ →
  o' ≠ o ∨ k' ≠ k →
  (TransactionRunner.runInTransaction DEBUG ctx name m).1 = Normal false.
Proof.
  intros Henv Hop Hempty Hne.
  rewrite (runInTransaction_eq DEBUG ctx _ name _ m Henv Hop). cbv zeta.
  set (h0 := {| this := _; world := _ |}).
  simpl. unfold mbind, M_bind.
  rewrite (didRender_eq DEBUG o k ref h0);
    [|done|by intros ->; eexists].
  rewrite assertNotRendered_fresh; [done|].
  cbn [this]. rewrite rendered_record.
  rewrite bool_decide_eq_false_2 by (intros [= -> ->]; by destruct Hne).
  by apply rendered_empty.
Qed.

Lemma C5_no_false_positive_witness :
  (TransactionRunner.runInTransaction true
     (render_context
        (run_script true assert_throws plain_toString
           [DidRender 1%positive "x" Null; AssertNotRendered 1%positive "y"]))
     "render" (loaded ["application"%string])).1
  = Normal false.
Proof.
  apply (C5_no_false_positive true assert_throws plain_toString
           (render_context _) stack_top "render" 1%positive 1%positive
           "x" "y" Null (loaded ["application"%string])).
  - reflexivity.
  - reflexivity.
  - reflexivity.
  - right. discriminate.
Defined.

(** C6.  Outside a transaction [didRender] and [assertNotRendered] return
    at once and leave the whole heap as it was -- table, [transactionId],
    [shouldReflush] and [inTransaction] included -- and [hasRendered]
    answers [false]; in either build mode. *)
Theorem C6_idle_noop {U} (DEBUG : bool)
    (assert : string → bool → completion unit) (toString : object → string)
    (o : object) (k : string) (ref : any) (h : Heap U) :
  inTransaction (this h) = false →
  didRender DEBUG o k ref h = (Normal tt, h) ∧
  assertNotRendered DEBUG assert toString o k h = (Normal tt, h) ∧
  hasRendered DEBUG o k h = (Normal false, h).
Proof.
  intros Hin. split; [by apply didRender_idle|].
  split; [by apply assertNotRendered_idle|].
  by rewrite hasRendered_eq, Hin.
Qed.

Lemma C6_idle_noop_witness :
  let h := heap (loaded ["application"%string]) in
  didRender true 1%positive "x" Null h = (Normal tt, h) ∧
  assertNotRendered true assert_throws plain_toString 1%positive "x" h
    = (Normal tt, h) ∧
  hasRendered true 1%positive "x" h = (Normal false, h).
Proof.
  apply (C6_idle_noop true assert_throws plain_toString 1%positive "x" Null
           (heap (loaded ["application"%string]))).
  reflexivity.
Defined.

(** C7.  In a production build [runInTransaction] calls the method once
    -- the log grows by this one call and the heap is what one run of the
    operation leaves -- and the value it returns is [false]: it never
    returns [true], and the only other outcome is the operation's own
    throw, passed on. *)
Theorem C7_production {U} (ctx : Context U) (name : string)
    (op : Operation U) (m : Machine U) :
  methods ctx !! name = Some op →
  let result := transaction.runInTransaction false ctx name m in
  invoked result.2 = name :: invoked m ∧
  heap result.2 = (op (heap m)).2 ∧
  result.1 = match (op (heap m)).1 with
             | Normal _ => Normal false
             | Throw x => Throw x
             end ∧
  result.1 ≠ Normal true.
Proof.
  intros Hop result. subst result.
  unfold transaction.runInTransaction, call_method. rewrite Hop.
  unfold mbind, M_bind, mret, M_ret.
  destruct (op (heap m)) as [[[]|x] h1]; by simpl.
Qed.

Lemma C7_production_witness :
  let result := transaction.runInTransaction false
                  (bare_context (mret tt)) "render" (loaded ["application"%string]) in
  invoked result.2 = ["render"%string] ∧
  result.1 = Normal false.
Proof.
  pose proof (C7_production (bare_context (mret tt)) "render" (mret tt)
                (loaded ["application"%string]) eq_refl) as (H1 & _ & H3 & _).
  split; [exact H1|exact H3].
Defined.

(** C8.  Inside a transaction, once [shouldReflush] is true it is true
    after every further sequence of [didRender], [assertNotRendered] and
    [hasRendered] calls (and renderer work), whether the sequence runs to
    its end or stops at a throw; [after] keeps it too.  Only [before], at
    the start of a transaction, writes [false]. *)
Theorem C8_reflush_monotone {U} (DEBUG : bool)
    (assert : string → bool → completion unit) (toString : object → string)
    (script : list (Call U)) (h : Heap U) :
  shouldReflush (this h) = true →
  shouldReflush (this (run_script DEBUG assert toString script h).2) = true ∧
  shouldReflush (this (after DEBUG h).2) = true ∧
  ∀ ctx : Context U, shouldReflush (this (before DEBUG ctx h).2) = false.
Proof.
  intros Hflag. split; [|split].
  - by apply (run_script_carries_on DEBUG assert toString script h).
  - by rewrite after_eq.
  - intros ctx. unfold before. unfold_monad. simpl.
    destruct DEBUG; [|done]. by destruct (env ctx).
Qed.

Lemma C8_reflush_monotone_witness :
  shouldReflush
    (this (run_script true assert_throws plain_toString
             [DidRender 1%positive "x" Null; HasRendered 1%positive "x";
              AssertNotRendered 1%positive "x"; DidRender 2%positive "y" Null]
             flagged_heap).2) = true.
Proof.
  refine (proj1 (C8_reflush_monotone true assert_throws plain_toString
                   [DidRender 1%positive "x" Null; HasRendered 1%positive "x";
                    AssertNotRendered 1%positive "x"; DidRender 2%positive "y" Null]
                   flagged_heap _)).
  reflexivity.
Defined.

(** C9.  Rendering the same pair twice in one transaction leaves the
    table as the second call alone would: the record of the first call is
    overwritten, the flag stays false, and [runInTransaction] returns
    [false]; in either build mode. *)
Theorem C9_render_twice {U} (DEBUG : bool)
    (assert : string → bool → completion unit) (toString : object → string)
    (ctx : Context U) (stack : DebugStack U) (name : string)
    (o : object) (k : string) (ref1 ref2 : any) (m : Machine U) :
  (DEBUG = true → env ctx = Some {| DebugContext.debugStack := Some stack |}) →
  methods ctx !! name =
    Some (run_script DEBUG assert toString
            [DidRender o k ref1; DidRender o k ref2]) →
  let h0 := (before DEBUG ctx (heap m)).2 in
  let twice := (run_script DEBUG assert toString
                  [DidRender o k ref1; DidRender o k ref2] h0).2 in
  let once := (run_script DEBUG assert toString [DidRender o k ref2] h0).2 in
  twice = once ∧
  stored (this twice) o k = Some (entry_of DEBUG ref2 h0) ∧
  shouldReflush (this twice) = false ∧
  (TransactionRunner.runInTransaction DEBUG ctx name m).1 = Normal false.
Proof.
  intros Henv Hop h0 twice once.
  rewrite (runInTransaction_eq DEBUG ctx _ name _ m Henv Hop). cbv zeta.
  subst twice once h0. rewrite (before_eq DEBUG ctx _ _ Henv).
  cbn [snd]. set (h0 := {| this := _; world := _ |}).
  assert (Hstack : DEBUG = true → is_Some (debugStack (this h0)))
    by (by intros ->; eexists).
  simpl. unfold mbind, M_bind, mret, M_ret.
  rewrite (didRender_eq DEBUG o k ref1 h0) by done.
  set (h1 := {| this := record _ _ _ _; world := _ |}).
  rewrite (didRender_eq DEBUG o k ref2 h1); [|done|exact Hstack].
  rewrite (didRender_eq DEBUG o k ref2 h0) by done.
  replace (entry_of DEBUG ref2 h1) with (entry_of DEBUG ref2 h0) by done.
  subst h1. cbn [fst snd this world]. rewrite record_record.
  repeat split.
  rewrite stored_record. by rewrite decide_True.
Qed.

Lemma C9_render_twice_witness :
  (TransactionRunner.runInTransaction true
     (render_context
        (run_script true assert_throws plain_toString
           [DidRender 1%positive "x" Null; DidRender 1%positive "x" (Number 2)]))
     "render" (loaded ["application"%string])).1
  = Normal false.
Proof.
  refine (proj2 (proj2 (proj2
    (C9_render_twice true assert_throws plain_toString (render_context _)
       stack_top "render" 1%positive "x" Null (Number 2)
       (loaded ["application"%string]) _ _)))); reflexivity.
Defined.

(** C10.  In a DEBUG build, for a context without [env], reading
    [context.env.debugStack] in [before] throws a [TypeError] out of
    [runInTransaction]: the method is not called (nothing is logged and
    the renderer's state is as it was) and [after] does not run, so the
    runner stays in a transaction with the table, [transactionId] and the
    stack reference it had; [before] has already written [inTransaction]
    and reset [shouldReflush]. *)
Theorem C10_setup_failure {U} (ctx : Context U) (name : string) (m : Machine U) :
  env ctx = None →
  let result := transaction.runInTransaction true ctx name m in
  result.1 = Throw (TypeError "Cannot read property 'debugStack' of undefined") ∧
  invoked result.2 = invoked m ∧
  world (heap result.2) = world (heap m) ∧
  inTransaction (this (heap result.2)) = true ∧
  weakMap (this (heap result.2)) = weakMap (this (heap m)) ∧
  transactionId (this (heap result.2)) = transactionId (this (heap m)) ∧
  debugStack (this (heap result.2)) = debugStack (this (heap m)) ∧
  shouldReflush (this (heap result.2)) = false.
Proof.
  intros Henv result. subst result.
  unfold transaction.runInTransaction, TransactionRunner.runInTransaction, before.
  unfold_monad. simpl. by rewrite Henv.
Qed.

Lemma C10_setup_failure_witness :
  let result := transaction.runInTransaction true (bare_context failing_render)
                  "render" (loaded ["application"%string]) in
  result.1 = Throw (TypeError "Cannot read property 'debugStack' of undefined") ∧
  invoked result.2 = [] ∧
  inTransaction (this (heap result.2)) = true.
Proof.
  pose proof (C10_setup_failure (bare_context failing_render) "render"
                (loaded ["application"%string]) eq_refl)
    as (H1 & H2 & _ & H4 & _).
  split; [exact H1|]. split; [exact H2|exact H4].
Defined.

End Claims.

(** * Further properties of the runner *)

(** ** The table: [createMap], [getOrCreateMap], [setKey], [getKey] *)

Section Table.
Context {U : Type}.
Import TransactionRunner.

Implicit Types (h : Heap U) (o : object) (k : string) (v : entry).

(** [setKey] then [getKey]: the pair just written reads back the value
    written, every other pair reads what it read before; [setKey] returns
    and touches the table only. *)
Theorem setKey_then_getKey o k v o' k' h :
  (setKey o k v ;; getKey o' k') h =
  (Normal (if decide ((o', k') = (o, k)) then Some v else stored (this h) o' k'),
   (setKey o k v h).2) ∧
  getKey o' k' h = (Normal (stored (this h) o' k'), h) ∧
  (setKey o k v h).1 = Normal tt ∧
  carries_on (this h) (this (setKey o k v h).2) ∧
  shouldReflush (this (setKey o k v h).2) = shouldReflush (this h) ∧
  world (setKey o k v h).2 = world h.
Proof.
  unfold mbind at 1, M_bind at 1. rewrite setKey_eq, !getKey_eq. simpl.
  rewrite stored_record. by repeat split.
Qed.

(** [getOrCreateMap] returns the map of the object, an empty one when the
    object had none; afterwards the object has that map, no pair reads
    differently, a heap that had the map is unchanged, and a second call
    returns the same map and changes nothing. *)
Theorem getOrCreateMap_spec o h :
  let map := default ∅ (weakMap (this h) !! o) in
  let h' := (getOrCreateMap o h).2 in
  (getOrCreateMap o h).1 = Normal map ∧
  weakMap (this h') !! o = Some map ∧
  (∀ o' k', stored (this h') o' k' = stored (this h) o' k') ∧
  (is_Some (weakMap (this h) !! o) → h' = h) ∧
  getOrCreateMap o h' = (Normal map, h').
Proof.
  unfold getOrCreateMap, createMap. unfold_monad. simpl.
  destruct (weakMap (this h) !! o) as [map|] eqn:Hm; simpl.
  - rewrite Hm. repeat split; try done.
  - rewrite lookup_insert_eq. repeat split; try done.
    intros o' k'. unfold stored; simpl.
    destruct (decide (o' = o)) as [->|Hne].
    + by rewrite lookup_insert_eq, Hm, lookup_empty.
    + by rewrite lookup_insert_ne.
Qed.

(** [createMap] starts the object over: it returns an empty map, every key
    of the object reads undefined afterwards, and other objects keep
    their records. *)
Theorem createMap_resets_object o h :
  let h' := (createMap o h).2 in
  (createMap o h).1 = Normal ∅ ∧
  (∀ k, getKey o k h' = (Normal None, h')) ∧
  (∀ o' k, o' ≠ o → stored (this h') o' k = stored (this h) o' k).
Proof.
  unfold createMap. unfold_monad. simpl. split; [done|]. split.
  - intros k. rewrite getKey_eq. unfold stored; simpl.
    by rewrite lookup_insert_eq, lookup_empty.
  - intros o' k Hne. unfold stored; simpl. by rewrite lookup_insert_ne.
Qed.

End Table.

(** ** The queries and the hazard path *)

Section Queries.
Import TransactionRunner.

Implicit Types (o : object) (k : string).

(** Inside a transaction [didRender(o, k, ref)] returns, makes
    [hasRendered(o, k)] true and changes the answer of [hasRendered] for
    no other pair; [hasRendered] itself leaves the heap as it is.  Either
    build mode; in DEBUG the stack has to be there. *)
Theorem didRender_marks_one_pair {U} (DEBUG : bool) o k (ref : any) o' k'
    (h : Heap U) :
  inTransaction (this h) = true →
  (DEBUG = true → is_Some (debugStack (this h))) →
  let h' := (didRender DEBUG o k ref h).2 in
  (didRender DEBUG o k ref h).1 = Normal tt ∧
  hasRendered DEBUG o k h' = (Normal true, h') ∧
  ((o', k') ≠ (o, k) →
   hasRendered DEBUG o' k' h' = ((hasRendered DEBUG o' k' h).1, h')).
Proof.
  intros Hin Hstack h'. subst h'.
  rewrite didRender_eq by done. simpl. split; [done|].
  rewrite !hasRendered_eq. simpl. rewrite Hin. simpl.
  rewrite !rendered_record. split.
  - by rewrite bool_decide_eq_true_2.
  - intros Hne. by rewrite bool_decide_eq_false_2.
Qed.

Lemma didRender_marks_one_pair_witness :
  let h := {| this := mk 5 true false ∅ (Some stack_top);
              world := ["application"%string] |} in
  let h' := (didRender true 1%positive "x" Null h).2 in
  hasRendered true 1%positive "x" h' = (Normal true, h') ∧
  hasRendered true 1%positive "y" h' = (Normal false, h').
Proof.
  pose proof (didRender_marks_one_pair true 1%positive "x" Null 1%positive "y"
                {| this := mk 5 true false ∅ (Some stack_top);
                   world := ["application"%string] |}
                eq_refl (λ _, ex_intro _ stack_top eq_refl))
    as (_ & H1 & H2).
  split; [exact H1|]. apply H2. discriminate.
Defined.

(** The hazard path of a DEBUG runner.  For a pair recorded with
    [lastRef] and [lastRenderedIn], [assertNotRendered] calls [assert]
    once, with a false test and the message built from the object, the
    label of the record and the current top of the stack.  If [assert]
    returns, the flag is set and nothing else changes; if it throws, the
    throw is passed on and the heap is as it was. *)
Theorem assertNotRendered_reports {U}
    (assert : string → bool → completion unit) (toString : object → string)
    o k (lastRef : any) (lastRenderedIn : option string)
    (stack : DebugStack U) (h : Heap U) :
  inTransaction (this h) = true →
  getKey o k h = (Normal (Some (Rendered lastRef lastRenderedIn)), h) →
  debugStack (this h) = Some stack →
  assertNotRendered true assert toString o k h =
  match assert (hazard_message toString o
                  (hazard_label lastRef lastRenderedIn)
                  (peek stack (world h))) false with
  | Normal _ =>
      (Normal tt, {| this := set_shouldReflush true (this h); world := world h |})
  | Throw x => (Throw x, h)
  end.
Proof.
  intros Hin Hget Hstack. rewrite getKey_eq in Hget.
  assert (Hs : stored (this h) o k = Some (Rendered lastRef lastRenderedIn))
    by congruence.
  unfold assertNotRendered. unfold mbind, mret, M_bind, M_ret, read.
  rewrite Hin; simpl. rewrite hasRendered_eq, Hin. unfold rendered; simpl.
  rewrite Hs. rewrite getKey_eq, Hs. simpl.
  unfold peek_debugStack, call_assert, update. rewrite Hstack.
  by destruct (assert _ false) as [[]|].
Qed.

Lemma assertNotRendered_reports_witness :
  let h := {| this := mk 0 true false
                {[ 1%positive :=
                     {[ "x" := Rendered (Ref (Some "ref"))
                                 (Some "application"%string) ]} ]}
                (Some stack_top);
              world := ["application"%string] |} in
  (assertNotRendered true assert_throws plain_toString 1%positive "x" h).1 =
  Throw (Error ("Assertion Failed: " +:+
           hazard_message plain_toString 1%positive
             "as `ref` in application" (Some "application"%string))).
Proof.
  intros h.
  rewrite (assertNotRendered_reports assert_throws plain_toString 1%positive "x"
             (Ref (Some "ref")) (Some "application"%string) stack_top h);
    [reflexivity|reflexivity|by vm_compute|reflexivity].
Defined.

End Queries.

(** ** Whole transactions *)

Section Whole.
Import TransactionRunner.


Lemma hazard_true {U} (seen : object * string → bool) (script : list (Call U)) :
  hazard seen script = true →
  ∃ s1 o k s2, script = s1 ++ AssertNotRendered o k :: s2 ∧
    (seen (o, k) = true ∨ ∃ ref, DidRender o k ref ∈ s1).
Proof.
  revert seen. induction script as [|c rest IH]; intros seen Hh; [done|].
  destruct c as [o' k' ref'|o' k'|o' k'|f]; simpl in Hh.
  - destruct (IH _ Hh) as (s1 & o & k & s2 & -> & Hs).
    exists (DidRender o' k' ref' :: s1), o, k, s2. split; [done|].
    destruct Hs as [Hs|[ref Hs]].
    + apply orb_true_iff in Hs as [Hs|Hs]; [|by left].
      apply bool_decide_eq_true in Hs as [= -> ->].
      right. exists ref'. apply list_elem_of_here.
    + right. exists ref. by apply list_elem_of_further.
  - apply orb_true_iff in Hh as [Hh|Hh].
    + exists [], o', k', rest. split; [done|by left].
    + destruct (IH _ Hh) as (s1 & o & k & s2 & -> & Hs).
      exists (AssertNotRendered o' k' :: s1), o, k, s2. split; [done|].
      destruct Hs as [Hs|[ref Hs]]; [by left|].
      right. exists ref. by apply list_elem_of_further.
  - destruct (IH _ Hh) as (s1 & o & k & s2 & -> & Hs).
    exists (HasRendered o' k' :: s1), o, k, s2. split; [done|].
    destruct Hs as [Hs|[ref Hs]]; [by left|].
    right. exists ref. by apply list_elem_of_further.
  - destruct (IH _ Hh) as (s1 & o & k & s2 & -> & Hs).
    exists (Work f :: s1), o, k, s2. split; [done|].
    destruct Hs as [Hs|[ref Hs]]; [by left|].
    right. exists ref. by apply list_elem_of_further.
Qed.

(** What one transaction over a sequence of tracker calls leaves. *)
Lemma runInTransaction_script {U} (DEBUG : bool)
    (assert : string → bool → completion unit) (toString : object → string)
    (ctx : Context U) (e : DebugContext.Env U) (name : string)
    (script : list (Call U)) (m : Machine U) :
  (DEBUG = true → env ctx = Some e) →
  methods ctx !! name = Some (run_script DEBUG assert toString script) →
  let result := TransactionRunner.runInTransaction DEBUG ctx name m in
  let r := this (heap result.2) in
  inTransaction r = false ∧ weakMap r = ∅ ∧
  transactionId r = transactionId (this (heap m)) + 1 ∧
  (DEBUG = true → debugStack r = None) ∧
  invoked result.2 = name :: invoked m ∧
  (result.1 = Normal (shouldReflush r) ∨ ∃ x, result.1 = Throw x).
Proof.
  intros Henv Hop result r. subst r result.
  rewrite (runInTransaction_eq DEBUG ctx e name _ m Henv Hop). cbv zeta.
  set (h0 := {| this := _; world := _ |}).
  destruct (run_script_carries_on DEBUG assert toString script h0)
    as (Hid & _ & _ & _).
  destruct (run_script DEBUG assert toString script h0) as [[[]|x] h1];
    simpl in *; rewrite Hid; repeat split; eauto; by intros ->.
Qed.

(** A transaction over any sequence of tracker calls cleans up on every
    exit: whether the operation returns or throws, the runner ends
    outside a transaction with an empty table, [transactionId] exactly one
    more than at entry and (in DEBUG) no stack reference; the method was
    called once; and a returned value is the flag the runner holds. *)
Theorem transaction_cleans_up_on_every_exit {U} (DEBUG : bool)
    (assert : string → bool → completion unit) (toString : object → string)
    (ctx : Context U) (e : DebugContext.Env U) (name : string)
    (script : list (Call U)) (m : Machine U) :
  (DEBUG = true → env ctx = Some e) →
  methods ctx !! name = Some (run_script DEBUG assert toString script) →
  let result := TransactionRunner.runInTransaction DEBUG ctx name m in
  let r := this (heap result.2) in
  inTransaction r = false ∧ weakMap r = ∅ ∧
  transactionId r = transactionId (this (heap m)) + 1 ∧
  (DEBUG = true → debugStack r = None) ∧
  invoked result.2 = name :: invoked m ∧
  (result.1 = Normal (shouldReflush r) ∨ ∃ x, result.1 = Throw x).
Proof. apply runInTransaction_script. Qed.

Lemma transaction_cleans_up_on_every_exit_witness :
  let result := TransactionRunner.runInTransaction true
     (render_context
        (run_script true assert_throws plain_toString
           [DidRender 1%positive "x" Null; AssertNotRendered 1%positive "x"]))
     "render" (loaded ["application"%string]) in
  inTransaction (this (heap result.2)) = false ∧
  weakMap (this (heap result.2)) = ∅ ∧
  transactionId (this (heap result.2)) = 1.
Proof.
  pose proof (transaction_cleans_up_on_every_exit true assert_throws
                plain_toString (render_context _)
                {| DebugContext.debugStack := Some stack_top |} "render"
                [DidRender 1%positive "x" Null; AssertNotRendered 1%positive "x"]
                (loaded ["application"%string]) (λ _, eq_refl) eq_refl)
    as (H1 & H2 & H3 & _).
  split; [exact H1|]. split; [exact H2|exact H3].
Defined.

(** Transactions are counted: after a renderer has run a list of
    transactions, each over a sequence of tracker calls and whatever each
    returned or threw, [transactionId] has grown by the length of the
    list, the methods were called once each in order, and the runner is
    idle with an empty table. *)
Theorem transactions_are_counted {U} (DEBUG : bool)
    (assert : string → bool → completion unit) (toString : object → string)
    (calls : list (Context U * string)) (m : Machine U) :
  Forall (λ call,
            (DEBUG = true → is_Some (env call.1)) ∧
            ∃ script, methods call.1 !! call.2 =
                      Some (run_script DEBUG assert toString script)) calls →
  let m' := run_all DEBUG calls m in
  transactionId (this (heap m')) =
    transactionId (this (heap m)) + Z.of_nat (length calls) ∧
  invoked m' = reverse (calls.*2) ++ invoked m ∧
  (calls ≠ [] →
   inTransaction (this (heap m')) = false ∧ weakMap (this (heap m')) = ∅).
Proof.
  revert m. induction calls as [|[ctx name] rest IH]; intros m Hall; simpl.
  - split; [lia|]. by split.
  - apply Forall_cons in Hall as [[Henv [script Hop]] Hrest].
    simpl in Henv, Hop.
    assert (∃ e, DEBUG = true → env ctx = Some e) as [e He].
    { destruct DEBUG.
      - destruct Henv as [e He]; [done|]. by exists e.
      - exists {| DebugContext.debugStack := None |}. done. }
    pose proof (runInTransaction_script DEBUG assert toString ctx e name
                  script m He Hop) as (Hin & Hw & Hid & _ & Hlog & _).
    cbv zeta in *.
    set (m1 := (TransactionRunner.runInTransaction DEBUG ctx name m).2) in *.
    destruct (IH m1 Hrest) as (Hid' & Hlog' & Hidle').
    split; [rewrite Hid', Hid; lia|]. split.
    + rewrite Hlog', Hlog, reverse_cons, <- app_assoc. done.
    + intros _. destruct rest as [|call rest']; [by simpl|].
      by apply Hidle'.
Qed.

Lemma transactions_are_counted_witness :
  let hazardous := run_script true assert_throws plain_toString
                     [DidRender 1%positive "x" Null; AssertNotRendered 1%positive "x"] in
  let harmless := run_script true assert_throws plain_toString
                     [DidRender 1%positive "x" Null] in
  let m' := run_all true
              [(render_context hazardous, "render"%string);
               (render_context harmless, "render"%string)]
              (loaded ["application"%string]) in
  transactionId (this (heap m')) = 2 ∧
  invoked m' = ["render"%string; "render"%string].
Proof.
  intros hazardous harmless m'.
  pose proof (transactions_are_counted true assert_throws plain_toString
                [(render_context hazardous, "render"%string);
                 (render_context harmless, "render"%string)]
                (loaded ["application"%string])) as H.
  destruct H as (H1 & H2 & _).
  - repeat constructor; simpl; eauto.
  - split; [exact H1|exact H2].
Defined.

End Whole.

(** ** When a transaction asks for a reflush, and when it cannot tell *)

Section Verdicts.
Import TransactionRunner.

(** The verdict of a transaction.  From an empty table, with collaborators
    that return, a transaction over a sequence of tracker calls returns,
    and it returns [true] exactly when the sequence calls
    [assertNotRendered(o, k)] somewhere after a [didRender(o, k, _)] of
    the same pair.  Either build mode of the class. *)
Theorem runInTransaction_true_iff {U} (DEBUG : bool)
    (assert : string → bool → completion unit) (toString : object → string)
    (ctx : Context U) (stack : DebugStack U) (name : string)
    (script : list (Call U)) (m : Machine U) :
  (DEBUG = true → env ctx = Some {| DebugContext.debugStack := Some stack |}) →
  (DEBUG = true → ∀ message, assert message false = Normal tt) →
  methods ctx !! name = Some (run_script DEBUG assert toString script) →
  weakMap (this (heap m)) = ∅ →
  ∃ b : bool,
    (TransactionRunner.runInTransaction DEBUG ctx name m).1 = Normal b ∧
    (b = true ↔
     ∃ s0 o k ref s1 s2,
       script = s0 ++ DidRender o k ref :: s1 ++ AssertNotRendered o k :: s2).
Proof.
  intros Henv Hassert Hop Hempty.
  rewrite (runInTransaction_eq DEBUG ctx _ name _ m Henv Hop). cbv zeta.
  set (h0 := {| this := _; world := _ |}).
  destruct (run_script_quiet DEBUG assert toString script h0)
    as (h' & Hrun & Hflag); [done| |].
  { intros HD. split; [|by apply Hassert]. subst h0; simpl. rewrite HD.
    by eexists. }
  rewrite Hrun. simpl. eexists. split; [done|].
  rewrite Hflag. simpl.
  rewrite (hazard_ext _ (λ _, false))
    by (intros p; by apply rendered_empty).
  split.
  - intros Hh. apply hazard_true in Hh
      as (s1 & o & k & s2 & -> & [Hs|[ref Hs]]); [done|].
    apply list_elem_of_split in Hs as (s0 & s1' & ->).
    exists s0, o, k, ref, s1', s2. by rewrite <- app_assoc.
  - intros (s0 & o & k & ref & s1 & s2 & ->). apply hazard_rendered.
Qed.

Lemma runInTransaction_true_iff_witness :
  ∃ b : bool,
    (TransactionRunner.runInTransaction true
       (render_context
          (run_script true assert_warns plain_toString
             [DidRender 1%positive "x" Null; AssertNotRendered 1%positive "x"]))
       "render" (loaded ["application"%string])).1 = Normal b ∧
    (b = true ↔
     ∃ s0 o k ref s1 s2,
       [DidRender 1%positive "x" Null; AssertNotRendered 1%positive "x"] =
       s0 ++ DidRender o k ref :: s1 ++
       (AssertNotRendered o k : Call (list string)) :: s2).
Proof.
  apply (runInTransaction_true_iff true assert_warns plain_toString
           (render_context _) stack_top "render"
           [DidRender 1%positive "x" Null; AssertNotRendered 1%positive "x"]
           (loaded ["application"%string])); reflexivity.
Defined.



End Verdicts.

(** ** Failures of the surroundings *)

Section Failures.
Import TransactionRunner.

(** A context whose [env] has no [debugStack] passes the setup of a DEBUG
    transaction; the first [didRender] then throws a [TypeError] inside
    the [try], so the cleanup runs: [runInTransaction] throws, the method
    was called, and the runner is idle with an empty table and
    [transactionId] one more than before. *)
Theorem missing_debugStack_fails_at_first_didRender {U}
    (assert : string → bool → completion unit) (toString : object → string)
    (ctx : Context U) (name : string) (o : object) (k : string) (ref : any)
    (rest : list (Call U)) (m : Machine U) :
  env ctx = Some {| DebugContext.debugStack := None |} →
  methods ctx !! name =
    Some (run_script true assert toString (DidRender o k ref :: rest)) →
  let result := TransactionRunner.runInTransaction true ctx name m in
  result.1 = Throw (TypeError "Cannot read property 'peek' of undefined") ∧
  invoked result.2 = name :: invoked m ∧
  inTransaction (this (heap result.2)) = false ∧
  weakMap (this (heap result.2)) = ∅ ∧
  transactionId (this (heap result.2)) = transactionId (this (heap m)) + 1.
Proof.
  intros Henv Hop result. subst result.
  by rewrite (runInTransaction_eq true ctx _ name _ m (λ _, Henv) Hop).
Qed.

Lemma missing_debugStack_fails_at_first_didRender_witness :
  let result := TransactionRunner.runInTransaction true
     (stackless_context
        (run_script true assert_warns plain_toString [DidRender 1%positive "x" Null]))
     "render" (loaded ["application"%string]) in
  result.1 = Throw (TypeError "Cannot read property 'peek' of undefined") ∧
  invoked result.2 = ["render"%string] ∧
  inTransaction (this (heap result.2)) = false ∧
  weakMap (this (heap result.2)) = ∅ ∧
  transactionId (this (heap result.2)) = 0 + 1.
Proof.
  apply (missing_debugStack_fails_at_first_didRender assert_warns
           plain_toString (stackless_context _) "render" 1%positive "x" Null
           [] (loaded ["application"%string])); reflexivity.
Defined.

(** A context without the named method.  The call [context[methodName]()]
    throws a [TypeError] and nothing is invoked.  In the runner the throw
    happens inside the [try], after [before]: the cleanup runs and
    [transactionId] still grows by one.  In a production build nothing
    changes at all. *)
Theorem missing_method_throws {U} (DEBUG : bool) (ctx : Context U)
    (e : DebugContext.Env U) (name : string) (m : Machine U) :
  (DEBUG = true → env ctx = Some e) →
  methods ctx !! name = None →
  let result := TransactionRunner.runInTransaction DEBUG ctx name m in
  result.1 = Throw (TypeError "context[methodName] is not a function") ∧
  invoked result.2 = invoked m ∧
  world (heap result.2) = world (heap m) ∧
  inTransaction (this (heap result.2)) = false ∧
  weakMap (this (heap result.2)) = ∅ ∧
  transactionId (this (heap result.2)) = transactionId (this (heap m)) + 1 ∧
  transaction.runInTransaction false ctx name m =
    (Throw (TypeError "context[methodName] is not a function"), m).
Proof.
  intros Henv Hnone result. subst result.
  unfold transaction.runInTransaction, TransactionRunner.runInTransaction,
    call_method.
  rewrite Hnone. unfold mbind, M_bind, lift, try_finally, throw.
  rewrite (before_eq DEBUG ctx e) by done. simpl. rewrite after_eq. simpl.
  by destruct m.
Qed.

Lemma missing_method_throws_witness :
  let result := TransactionRunner.runInTransaction true empty_context "render"
                  (loaded ["application"%string]) in
  result.1 = Throw (TypeError "context[methodName] is not a function") ∧
  invoked result.2 = [] ∧
  transactionId (this (heap result.2)) = 1.
Proof.
  pose proof (missing_method_throws true empty_context
                {| DebugContext.debugStack := Some stack_top |} "render"
                (loaded ["application"%string]) (λ _, eq_refl) eq_refl)
    as (H1 & H2 & _ & _ & _ & H6 & _).
  split; [exact H1|]. split; [exact H2|exact H6].
Defined.

(** In a production build [didRender] and [assertNotRendered] are never
    assigned.  An operation that starts by calling either of them throws a
    [TypeError] out of [runInTransaction], and the heap is untouched. *)
Theorem production_exports_are_undefined {U}
    (assert : string → bool → completion unit) (toString : object → string)
    (ctx : Context U) (name : string) (o : object) (k : string) (ref : any)
    (first rest : M (Heap U) unit) (message : string) (m : Machine U) :
  methods ctx !! name = Some (first ;; rest) →
  (first = transaction.didRender false o k ref ∧
   message = "didRender is not a function") ∨
  (first = transaction.assertNotRendered false assert toString o k ∧
   message = "assertNotRendered is not a function") →
  transaction.runInTransaction false ctx name m =
  (Throw (TypeError message),
   {| heap := heap m; invoked := name :: invoked m |}).
Proof.
  intros Hop Hfirst. unfold transaction.runInTransaction, call_method.
  change (methods ctx !! name = Some ((first ;; rest) : Operation U)) in Hop.
  rewrite Hop. by destruct Hfirst as [[-> ->]|[-> ->]].
Qed.

Lemma production_exports_are_undefined_witness :
  transaction.runInTransaction false
    (bare_context (transaction.didRender false 1%positive "x" Null ;; mret tt))
    "render" (loaded ["application"%string]) =
  (Throw (TypeError "didRender is not a function"),
   {| heap := heap (loaded ["application"%string]);
      invoked := ["render"%string] |}).
Proof.
  apply (production_exports_are_undefined assert_throws plain_toString
           (bare_context _) "render" 1%positive "x" Null
           (transaction.didRender false 1%positive "x" Null) (mret tt)
           "didRender is not a function" (loaded ["application"%string])).
  - reflexivity.
  - left. split; reflexivity.
Defined.

(** A failed setup poisons a DEBUG runner.  After [runInTransaction] has
    thrown in [before] (no [env]), the runner stays in a transaction with
    the stack reference it had; if that is undefined, as it is after load
    and after every completed transaction, each later [didRender] throws a
    [TypeError] instead of being the no-op it is outside a transaction. *)
Theorem failed_setup_poisons_didRender {U} (ctx : Context U) (name : string)
    (o : object) (k : string) (ref : any) (m : Machine U) :
  env ctx = None →
  debugStack (this (heap m)) = None →
  let h := heap (transaction.runInTransaction true ctx name m).2 in
  didRender true o k ref h =
  (Throw (TypeError "Cannot read property 'peek' of undefined"), h).
Proof.
  intros Henv Hstack h. subst h.
  unfold transaction.runInTransaction, TransactionRunner.runInTransaction,
    before, didRender.
  unfold_monad. simpl. rewrite Henv. simpl. by rewrite Hstack.
Qed.

Lemma failed_setup_poisons_didRender_witness :
  let h := heap (transaction.runInTransaction true (bare_context (mret tt))
                   "render" (loaded ["application"%string])).2 in
  didRender true 1%positive "x" Null h =
  (Throw (TypeError "Cannot read property 'peek' of undefined"), h).
Proof.
  apply (failed_setup_poisons_didRender (bare_context (mret tt)) "render"
           1%positive "x" Null (loaded ["application"%string])); reflexivity.
Defined.

End Failures.
